(** * The TypeScript plugin of the Svelte language server

    A shallow embedding of [src/plugins/TypeScriptPlugin.ts]: the four
    query operations of the plugin ([getDiagnostics], [doHover],
    [getDocumentSymbols], [getCompletions]), the registration hook and the
    navigation-tree traversal, with the calls they make into the host and
    into the TypeScript language service recorded in a trace. *)

From Stdlib Require Import ZArith Ascii.
From stdpp Require Import base option list strings gmap.

Set Warnings "-register-all".

Local Open Scope Z_scope.
Local Open Scope string_scope.
Local Open Scope list_scope.

(** ** Data of the TypeScript compiler API (the [ts] namespace) *)

Module ts.

(** [ts.ScriptKind]. *)
Inductive ScriptKind :=
| Unknown | JS | JSX | TS | TSX | External | JSON | Deferred.

#[global] Instance ScriptKind_eq_dec : EqDecision ScriptKind.
Proof. solve_decision. Defined.

(** [ts.TextSpan]: offsets are JavaScript numbers holding integers. *)
Record TextSpan := { start : Z; length : Z }.

Inductive DiagnosticCategory := Warning | Error | Suggestion | Message.

(** [ts.DiagnosticMessageChain] and the type of [Diagnostic.messageText],
    [string | DiagnosticMessageChain]. *)
Inductive DiagnosticMessageChain :=
| MessageChain (text : string) (category : DiagnosticCategory) (code : Z)
               (next : option DiagnosticMessageChain).

Inductive MessageText :=
| Plain (s : string)
| Chain (c : DiagnosticMessageChain).

(** [ts.Diagnostic]; [start] and [length] are [number | undefined]. *)
Record Diagnostic := {
  diagStart : option Z;
  diagLength : option Z;
  messageText : MessageText;
  category : DiagnosticCategory;
  code : Z;
}.

Record SymbolDisplayPart := { partText : string; partKind : string }.

(** [ts.QuickInfo]; [displayParts] is an optional property. *)
Record QuickInfo := {
  quickKind : string;
  textSpan : TextSpan;
  displayParts : option (list SymbolDisplayPart);
}.

(** [ts.NavigationTree]; [childItems] is an optional property. *)
Inductive NavigationTree :=
| Node (text : string) (kind : string) (spans : list TextSpan)
       (childItems : option (list NavigationTree)).

(** [ts.CompletionEntry]; [isRecommended] is [true | undefined]. *)
Record CompletionEntry := {
  name : string;
  entryKind : string;
  sortText : string;
  isRecommended : option bool;
}.

Record CompletionInfo := {
  isGlobalCompletion : bool;
  isMemberCompletion : bool;
  isNewIdentifierLocation : bool;
  entries : list CompletionEntry;
}.

(** [ts.GetCompletionsAtPositionOptions], the two properties the plugin sets. *)
Record GetCompletionsAtPositionOptions := {
  includeCompletionsForModuleExports : bool;
  triggerCharacter : option string;
}.

(** The answers of a [ts.LanguageService] to the five queries the plugin
    makes.  File names are [string | undefined] at run time: the plugin
    passes [document.getFilePath()!], and the [!] is erased. *)
Record LanguageService := {
  getSyntacticDiagnostics : option string → list Diagnostic;
  getSemanticDiagnostics : option string → list Diagnostic;
  getQuickInfoAtPosition : option string → Z → option QuickInfo;
  getNavigationTree : option string → NavigationTree;
  getCompletionsAtPosition :
    option string → Z → GetCompletionsAtPositionOptions → option CompletionInfo;
}.

End ts.

(** ** Data of the host API (['../api']) *)

Record Position := { line : Z; character : Z }.

Module Range.
Record t := create { start : Position; end_ : Position }.
End Range.

Inductive DiagnosticSeverity := Error | Warning | Information | Hint.

Record Diagnostic := {
  range : Range.t;
  severity : DiagnosticSeverity;
  source : string;
  message : string;
}.

Record MarkedString := { language : string; value : string }.

Record Hover := { hoverRange : Range.t; contents : MarkedString }.

(** The protocol's numeric enumerations. *)
Definition SymbolKind := Z.
Definition CompletionItemKind := Z.

Record Location := { uri : string; locRange : Range.t }.

Record SymbolInformation := {
  name : string;
  kind : SymbolKind;
  location : Location;
  containerName : option string;
}.

Record CompletionItem := {
  label : string;
  itemKind : CompletionItemKind;
  sortText : string;
  commitCharacters : option (list string);
  preselect : option bool;
}.

(** A document of the host: the operations the plugin uses. *)
Record Document := {
  getFilePath : option string;
  offsetAt : Position → Z;
  positionAt : Z → Position;
  getAttributes : gmap string string;
  getURL : string;
}.

(** The argument of [host.openDocument]. *)
Record TextDocumentItem := {
  languageId : string;
  itemText : string;
  itemUri : string;
  version : Z;
}.

(** The host: its configuration and its document store. *)
Record Host := {
  getConfig : string → bool;
  openDocument : TextDocumentItem → Document;
}.

(** ** Effects: calls into the host and the engine, and exceptions *)

Inductive Call :=
| host_getConfig (key : string)
| host_openDocument (item : TextDocumentItem)
| host_lockDocument (uri : string)
| lang_getSyntacticDiagnostics (fileName : option string)
| lang_getSemanticDiagnostics (fileName : option string)
| lang_getQuickInfoAtPosition (fileName : option string) (position : Z)
| lang_getNavigationTree (fileName : option string)
| lang_getCompletionsAtPosition (fileName : option string) (position : Z)
    (options : ts.GetCompletionsAtPositionOptions)
| console_log (payload : option ts.CompletionInfo).

(** The calls that reach the virtual-document factory ([createDocument]
    opens and locks a document) and those that reach the engine. *)
Definition is_factory_call (c : Call) : bool :=
  match c with
  | host_openDocument _ | host_lockDocument _ => true
  | _ => false
  end.

Definition is_engine_call (c : Call) : bool :=
  match c with
  | lang_getSyntacticDiagnostics _ | lang_getSemanticDiagnostics _
  | lang_getQuickInfoAtPosition _ _ | lang_getNavigationTree _
  | lang_getCompletionsAtPosition _ _ _ => true
  | _ => false
  end.

Inductive Exception :=
| TypeError (msg : string)
| OtherError (msg : string).

Inductive Outcome (A : Type) :=
| Returned (a : A)
| Thrown (e : Exception).
Arguments Returned {A} a.
Arguments Thrown {A} e.

(** A computation continues the trace of the calls made so far and either
    returns or throws. *)
Definition M (A : Type) : Type := list Call → Outcome A * list Call.

#[global] Instance M_ret : MRet M := λ A a t, (Returned a, t).

#[global] Instance M_bind : MBind M := λ A B f m t,
  match m t with
  | (Returned a, t') => f a t'
  | (Thrown e, t') => (Thrown e, t')
  end.

Definition throw {A} (e : Exception) : M A := λ t, (Thrown e, t).

(** A call whose answer [a] is known: it is appended to the trace. *)
Definition call {A} (c : Call) (a : A) : M A := λ t, (Returned a, t ++ [c]).

(** ** What the plugin imports *)

(** The object handed to [convertRange]: the plugin passes a diagnostic of
    the engine in [getDiagnostics] and a text span in [doHover]. *)
Inductive EngineSpan :=
| OfDiagnostic (diagnostic : ts.Diagnostic)
| OfTextSpan (span : ts.TextSpan).

(** [CreateDocument] of ['./typescript/service']. *)
Definition CreateDocument : Type := string → string → M Document.

(** Functions the plugin imports and whose code is outside the file: the
    helpers of ['./typescript/utils'] and ['./typescript/service'], and
    those of the [typescript], [vscode-uri] and protocol libraries. *)
Class Imports := {
  convertRange : Document → EngineSpan → Range.t;
  getScriptKindFromAttributes : gmap string string → ts.ScriptKind;
  symbolKindFromString : string → SymbolKind;
  scriptElementKindToCompletionItemKind : string → CompletionItemKind;
  getCommitCharactersForScriptElement : string → option (list string);
  getLanguageServiceForDocument :
    Document → CreateDocument → M ts.LanguageService;
  flattenDiagnosticMessageText : ts.MessageText → string → string;
  displayPartsToString : option (list ts.SymbolDisplayPart) → string;
  URL_file : string → string;
  SymbolInformation_create :
    string → SymbolKind → Range.t → string → option string → SymbolInformation;
}.

(** ** The plugin *)

(** The two fields [onRegister] sets. *)
Record TypeScriptPlugin := {
  host : Host;
  createDocument : CreateDocument;
}.

(** The line feed ['\n']. *)
Definition newline : string := String "010"%char "".

Section Plugin.

Context `{Imports}.

(** [onRegister(host)]: binds the host and builds the document factory,
    which opens a document at the file's URI and locks it. *)
Definition onRegister (h : Host) : TypeScriptPlugin :=
  {| host := h;
     createDocument := λ fileName content,
       let uri := URL_file fileName in
       let item := {| languageId := ""; itemText := content;
                      itemUri := uri; version := 0 |} in
       document ← call (host_openDocument item) (openDocument h item);
       _ ← call (host_lockDocument uri) ();
       mret document |}.

(** [this.host.getConfig<boolean>(key)]. *)
Definition host_config (this : TypeScriptPlugin) (key : string) : M bool :=
  call (host_getConfig key) (getConfig (host this) key).

(** The test [getScriptKindFromAttributes(document.getAttributes()) ===
    ts.ScriptKind.TS] of [getDiagnostics]. *)
Definition isTypescript (document : Document) : bool :=
  bool_decide (getScriptKindFromAttributes (getAttributes document) = ts.TS).

(** [getDiagnostics(document)].  [diagnostics.push(...)] appends the
    semantic diagnostics to the array the syntactic query returned. *)
Definition getDiagnostics (this : TypeScriptPlugin) (document : Document)
    : M (list Diagnostic) :=
  enabled ← host_config this "typescript.diagnostics.enable";
  if negb enabled then mret [] else
  lang ← getLanguageServiceForDocument document (createDocument this);
  let isTypescript := isTypescript document in
  diagnostics ← call (lang_getSyntacticDiagnostics (getFilePath document))
                     (ts.getSyntacticDiagnostics lang (getFilePath document));
  diagnostics ←
    (if isTypescript then
       semantic ← call (lang_getSemanticDiagnostics (getFilePath document))
                       (ts.getSemanticDiagnostics lang (getFilePath document));
       mret (diagnostics ++ semantic)
     else mret diagnostics);
  mret ((λ diagnostic,
           {| range := convertRange document (OfDiagnostic diagnostic);
              severity := Error;
              source := if isTypescript then "ts" else "js";
              message := flattenDiagnosticMessageText
                           (ts.messageText diagnostic) newline |})
        <$> diagnostics).

(** [doHover(document, position)]. *)
Definition doHover (this : TypeScriptPlugin) (document : Document)
    (position : Position) : M (option Hover) :=
  enabled ← host_config this "typescript.hover.enable";
  if negb enabled then mret None else
  lang ← getLanguageServiceForDocument document (createDocument this);
  info ← call (lang_getQuickInfoAtPosition (getFilePath document)
                 (offsetAt document position))
              (ts.getQuickInfoAtPosition lang (getFilePath document)
                 (offsetAt document position));
  match info with
  | None => mret None
  | Some info =>
      let contents := displayPartsToString (ts.displayParts info) in
      mret (Some {| hoverRange := convertRange document
                                    (OfTextSpan (ts.textSpan info));
                    contents := {| language := "ts"; value := contents |} |})
  end.

(** [collectSymbols(tree, container, cb)] with [cb] the callback of
    [getDocumentSymbols], which pushes onto [symbols]: the array is threaded
    through the traversal, and the loop over [tree.childItems] is a fold. *)
Fixpoint collectSymbols (document : Document) (tree : ts.NavigationTree)
    (container : option string) (symbols : list SymbolInformation)
    : list SymbolInformation :=
  let 'ts.Node text kind spans childItems := tree in
  let start := spans !! 0%nat in
  let end_ := spans !! (length spans - 1)%nat in
  let symbols :=
    match start, end_ with
    | Some start, Some end_ =>
        symbols ++
        [SymbolInformation_create text (symbolKindFromString kind)
           (Range.create
              (positionAt document (ts.start start))
              (positionAt document (ts.start end_ + ts.length end_)))
           (getURL document) container]
    | _, _ => symbols
    end in
  match childItems with
  | Some childItems =>
      fold_left
        (λ symbols child, collectSymbols document child (Some text) symbols)
        childItems symbols
  | None => symbols
  end.

(** The mapping of [getDocumentSymbols] over [symbols.slice(1)]. *)
Definition reparent (topContainerName : string) (symbol : SymbolInformation)
    : SymbolInformation :=
  if decide (containerName symbol = Some topContainerName)
  then {| name := name symbol; kind := kind symbol;
          location := location symbol; containerName := Some "script" |}
  else symbol.

(** [getDocumentSymbols(document)].  Reading [symbols[0].name] of an empty
    array throws a [TypeError]. *)
Definition getDocumentSymbols (this : TypeScriptPlugin) (document : Document)
    : M (list SymbolInformation) :=
  enabled ← host_config this "typescript.documentSymbols.enable";
  if negb enabled then mret [] else
  lang ← getLanguageServiceForDocument document (createDocument this);
  navTree ← call (lang_getNavigationTree (getFilePath document))
                 (ts.getNavigationTree lang (getFilePath document));
  let symbols := collectSymbols document navTree None [] in
  match symbols !! 0%nat with
  | None => throw (TypeError "Cannot read property 'name' of undefined")
  | Some first =>
      let topContainerName := name first in
      mret (reparent topContainerName <$> drop 1 symbols)
  end.

(** [getCompletions(document, position, triggerCharacter)]. *)
Definition getCompletions (this : TypeScriptPlugin) (document : Document)
    (position : Position) (triggerCharacter : option string)
    : M (list CompletionItem) :=
  enabled ← host_config this "typescript.completions.enable";
  if negb enabled then mret [] else
  lang ← getLanguageServiceForDocument document (createDocument this);
  let options :=
    {| ts.includeCompletionsForModuleExports := true;
       ts.triggerCharacter := triggerCharacter |} in
  completions ← call (lang_getCompletionsAtPosition (getFilePath document)
                        (offsetAt document position) options)
                     (ts.getCompletionsAtPosition lang (getFilePath document)
                        (offsetAt document position) options);
  _ ← call (console_log completions) ();
  match completions with
  | None => mret []
  | Some completions =>
      mret ((λ comp,
               {| label := ts.name comp;
                  itemKind := scriptElementKindToCompletionItemKind
                                (ts.entryKind comp);
                  sortText := ts.sortText comp;
                  commitCharacters := getCommitCharactersForScriptElement
                                        (ts.entryKind comp);
                  preselect := ts.isRecommended comp |})
            <$> ts.entries completions)
  end.

End Plugin.

(** ** Shapes of navigation trees *)

(** A tree with no span at any level. *)
Fixpoint spanless (tree : ts.NavigationTree) : bool :=
  let 'ts.Node _ _ spans childItems := tree in
  match spans with
  | [] =>
      match childItems with
      | Some children => forallb spanless children
      | None => true
      end
  | _ :: _ => false
  end.

(** Induction on a navigation tree whose premise covers the children. *)
Section NavigationTree_induction.

Variable P : ts.NavigationTree → Prop.
Hypothesis P_leaf : ∀ text kind spans, P (ts.Node text kind spans None).
Hypothesis P_node : ∀ text kind spans children,
  Forall P children → P (ts.Node text kind spans (Some children)).

Fixpoint NavigationTree_children_ind (tree : ts.NavigationTree) : P tree :=
  match tree with
  | ts.Node text kind spans None => P_leaf text kind spans
  | ts.Node text kind spans (Some children) =>
      P_node text kind spans children
        ((fix all (l : list ts.NavigationTree) : Forall P l :=
            match l with
            | [] => @List.Forall_nil _ P
            | child :: l =>
                @List.Forall_cons _ P child l
                  (NavigationTree_children_ind child) (all l)
            end) children)
  end.

End NavigationTree_induction.

(** ** Statements about traces and tags *)

(** The calls of a trace that reach the document factory or the engine. *)
Definition bridge_calls (t : list Call) : list Call :=
  List.filter (λ c, is_factory_call c || is_engine_call c) t.

(** The tagging of diagnostics with the tags ["typed"] and ["untyped"]:
    every diagnostic [getDiagnostics] returns has severity [Error] and
    carries the tag of the document's script kind. *)
Definition tagged_typed_or_untyped `{Imports} (this : TypeScriptPlugin)
    (document : Document) (t : list Call) : Prop :=
  ∀ out t',
    getDiagnostics this document t = (Returned out, t') →
    Forall (λ d, severity d = Error ∧
                 source d = if isTypescript document then "typed" else "untyped")
      out.

(** The number of nodes of a tree that have at least one span. *)
Fixpoint spanned (tree : ts.NavigationTree) : nat :=
  let 'ts.Node _ _ spans childItems := tree in
  ((match spans with [] => 0 | _ :: _ => 1 end) +
   match childItems with
   | Some children => sum_list_with spanned children
   | None => 0
   end)%nat.

(** The display names of the nodes that have a span, parents before
    children and children in their order. *)
Fixpoint spanned_texts (tree : ts.NavigationTree) : list string :=
  let 'ts.Node text _ spans childItems := tree in
  match spans with [] => [] | _ :: _ => [text] end ++
  match childItems with
  | Some children => concat (spanned_texts <$> children)
  | None => []
  end.

(** A trace in which every [host.lockDocument(uri)] comes right after a
    [host.openDocument] of an item with that URI; [previous] is the call
    made just before the trace. *)
Fixpoint locks_follow_opens (previous : option Call) (t : list Call) : bool :=
  match t with
  | [] => true
  | c :: t =>
      match c with
      | host_lockDocument uri =>
          match previous with
          | Some (host_openDocument item) => bool_decide (itemUri item = uri)
          | _ => false
          end
      | _ => true
      end && locks_follow_opens (Some c) t
  end.

(** ** A sample host, engine and set of imports

    Concrete collaborators on which the plugin can be run: a document
    whose positions are offsets on line 0, a host with a fixed
    configuration, and a service resolver that calls the document factory
    it is given on every request and then hands out a fixed engine. *)

Module Sample.

Definition document (attributes : gmap string string) : Document :=
  {| getFilePath := Some "/App.svelte.ts";
     offsetAt := λ position, character position;
     positionAt := λ offset, {| line := 0; character := offset |};
     getAttributes := attributes;
     getURL := "file:///App.svelte" |}.

Definition typed : Document := document {[ "lang" := "ts" ]}.
Definition untyped : Document := document ∅.

Definition host (config : string → bool) : Host :=
  {| getConfig := config;
     openDocument := λ item, document ∅ |}.

Definition all_enabled : string → bool := λ _, true.
Definition all_disabled : string → bool := λ _, false.

Definition span (start length : Z) : ts.TextSpan :=
  {| ts.start := start; ts.length := length |}.

Definition diagnostic (start length : Z) (text : string)
    (category : ts.DiagnosticCategory) : ts.Diagnostic :=
  {| ts.diagStart := Some start; ts.diagLength := Some length;
     ts.messageText := ts.Plain text; ts.category := category;
     ts.code := 2322 |}.

(** An engine with fixed answers. *)
Definition engine (syntactic semantic : list ts.Diagnostic)
    (info : option ts.QuickInfo) (tree : ts.NavigationTree)
    (completions : option ts.CompletionInfo) : ts.LanguageService :=
  {| ts.getSyntacticDiagnostics := λ _, syntactic;
     ts.getSemanticDiagnostics := λ _, semantic;
     ts.getQuickInfoAtPosition := λ _ _, info;
     ts.getNavigationTree := λ _, tree;
     ts.getCompletionsAtPosition := λ _ _ _, completions |}.

Definition module_tree : ts.NavigationTree :=
  ts.Node "App.svelte.ts" "module" [span 0 0] None.

(** An engine that answers only the diagnostics queries. *)
Definition diagnostics_engine (syntactic semantic : list ts.Diagnostic)
    : ts.LanguageService :=
  engine syntactic semantic None module_tree None.

Definition tree_engine (tree : ts.NavigationTree) : ts.LanguageService :=
  engine [] [] None tree None.

Fixpoint flattenChain (chain : ts.DiagnosticMessageChain) : string :=
  let 'ts.MessageChain text _ _ next := chain in
  match next with
  | Some next => text +:+ newline +:+ flattenChain next
  | None => text
  end.

Definition imports (lang : ts.LanguageService) : Imports :=
  {| convertRange := λ doc span,
       let '(start, length) :=
         match span with
         | OfDiagnostic d =>
             (default 0 (ts.diagStart d), default 0 (ts.diagLength d))
         | OfTextSpan s => (ts.start s, ts.length s)
         end in
       Range.create (positionAt doc start) (positionAt doc (start + length));
     getScriptKindFromAttributes := λ attributes,
       if decide (attributes !! "lang" = Some "ts") then ts.TS else ts.JS;
     symbolKindFromString := λ kind,
       if decide (kind = "module") then 2
       else if decide (kind = "class") then 5
       else if decide (kind = "function") then 12
       else 13;
     scriptElementKindToCompletionItemKind := λ kind,
       if decide (kind = "method") then 2
       else if decide (kind = "function") then 3
       else 10;
     getCommitCharactersForScriptElement := λ kind,
       if decide (kind = "method") then Some ["."; ","; "("] else None;
     getLanguageServiceForDocument := λ doc create,
       _ ← create "/App.svelte.ts" "let x = 1";
       mret lang;
     flattenDiagnosticMessageText := λ text _,
       match text with
       | ts.Plain s => s
       | ts.Chain chain => flattenChain chain
       end;
     displayPartsToString := λ parts,
       String.concat "" (ts.partText <$> default [] parts);
     URL_file := λ fileName, "file://" +:+ fileName;
     SymbolInformation_create := λ name kind range uri containerName,
       {| name := name; kind := kind;
          location := {| uri := uri; locRange := range |};
          containerName :=
            if decide (containerName = Some "") then None else containerName |};
  |}.

(** A tree without spans, the tree of a root ["R"], its child ["A"] and
    the grandchild ["B"], and a tree whose root alone has no span. *)
Definition spanless_tree : ts.NavigationTree :=
  ts.Node "App.svelte.ts" "module" [] (Some [ts.Node "x" "let" [] None]).

Definition family_tree : ts.NavigationTree :=
  ts.Node "R" "module" [span 0 5]
    (Some [ts.Node "A" "class" [span 0 5]
             (Some [ts.Node "B" "method" [span 1 2] None])]).

Definition headless_tree : ts.NavigationTree :=
  ts.Node "App.svelte.ts" "module" [] (Some [ts.Node "x" "let" [span 4 1] None]).

(** A node in two fragments with one child. *)
Definition fragmented_children : list ts.NavigationTree :=
  [ts.Node "m" "method" [span 12 3] None].

(** One syntactic and one semantic diagnostic. *)
Definition expected_semicolon : ts.Diagnostic :=
  diagnostic 9 1 "';' expected." ts.Error.
Definition unused_variable : ts.Diagnostic :=
  diagnostic 4 1 "'x' is declared but never used." ts.Warning.
Definition checker : ts.LanguageService :=
  diagnostics_engine [expected_semicolon] [unused_variable].

(** Quick info for [let x: number]. *)
Definition info_x : ts.QuickInfo :=
  {| ts.quickKind := "let"; ts.textSpan := span 4 1;
     ts.displayParts :=
       Some [ {| ts.partText := "let"; ts.partKind := "keyword" |};
              {| ts.partText := " "; ts.partKind := "space" |};
              {| ts.partText := "x"; ts.partKind := "localName" |};
              {| ts.partText := ": "; ts.partKind := "punctuation" |};
              {| ts.partText := "number"; ts.partKind := "keyword" |} ] |}.

Definition informer (info : option ts.QuickInfo) : ts.LanguageService :=
  engine [] [] info module_tree None.

(** The completion entry [foo], a recommended method. *)
Definition foo : ts.CompletionEntry :=
  {| ts.name := "foo"; ts.entryKind := "method"; ts.sortText := "0";
     ts.isRecommended := Some true |}.

Definition completer (completions : option ts.CompletionInfo)
    : ts.LanguageService :=
  engine [] [] None module_tree completions.

Definition only_foo : ts.CompletionInfo :=
  {| ts.isGlobalCompletion := false; ts.isMemberCompletion := true;
     ts.isNewIdentifierLocation := false; ts.entries := [foo] |}.

(** The calls the sample resolver makes through the document factory. *)
Definition factory_trace : list Call :=
  [host_openDocument {| languageId := ""; itemText := "let x = 1";
                        itemUri := "file:///App.svelte.ts"; version := 0 |};
   host_lockDocument "file:///App.svelte.ts"].

(** The plugin registered with a host. *)
Definition plugin (lang : ts.LanguageService) (config : string → bool)
    : TypeScriptPlugin :=
  @onRegister (imports lang) (host config).

(** The sample imports with a resolver that fails to build a service. *)
Definition broken_imports : Imports :=
  {| convertRange := convertRange (Imports := imports checker);
     getScriptKindFromAttributes :=
       getScriptKindFromAttributes (Imports := imports checker);
     symbolKindFromString := symbolKindFromString (Imports := imports checker);
     scriptElementKindToCompletionItemKind :=
       scriptElementKindToCompletionItemKind (Imports := imports checker);
     getCommitCharactersForScriptElement :=
       getCommitCharactersForScriptElement (Imports := imports checker);
     getLanguageServiceForDocument := λ doc create,
       throw (OtherError "Could not find file: '/App.svelte.ts'.");
     flattenDiagnosticMessageText :=
       flattenDiagnosticMessageText (Imports := imports checker);
     displayPartsToString := displayPartsToString (Imports := imports checker);
     URL_file := URL_file (Imports := imports checker);
     SymbolInformation_create :=
       SymbolInformation_create (Imports := imports checker) |}.

(** A configuration with a single flag set. *)
Definition only (flag : string) : string → bool :=
  λ key, bool_decide (key = flag).

(** A tree with two top-level symbols, the first with a member. *)
Definition script_tree : ts.NavigationTree :=
  ts.Node "App.svelte.ts" "module" [span 0 40]
    (Some [ts.Node "Counter" "class" [span 0 20]
             (Some [ts.Node "increment" "method" [span 10 8] None]);
           ts.Node "count" "let" [span 25 5] None]).

End Sample.

(** * Properties *)

(** Unfolds an operation down to the trace it produces. *)
Ltac run_operation :=
  unfold getDiagnostics, doHover, getDocumentSymbols, getCompletions,
    host_config, call, throw, mbind, M_bind, mret, M_ret; simpl.

(** The two assumptions under which an enabled operation reaches the
    engine: the flag is set and the service resolver returns. *)
Ltac reach_engine Henabled Hlang :=
  run_operation; rewrite Henabled; simpl; rewrite Hlang; simpl.

Lemma Forall2_fmap_intro {A B} (R : A → B → Prop) (f : A → B) (l : list A) :
  (∀ x, R x (f x)) → Forall2 R l (f <$> l).
Proof.
  intros Hf. induction l as [|x l IH]; simpl; constructor; auto.
Qed.

Lemma lookup_final {A} (l : list A) : l !! (length l - 1)%nat = last l.
Proof.
  rewrite last_lookup. f_equal. lia.
Qed.

Lemma filter_snoc_false {A} (f : A → bool) (l : list A) (x : A) :
  f x = false → List.filter f (l ++ [x]) = List.filter f l.
Proof.
  intros Hx. rewrite List.filter_app. simpl. rewrite Hx. apply app_nil_r.
Qed.

(** ** The traversal of the navigation tree *)

Section Traversal.

Context `{Imports}.

Variable document : Document.

(** What a traversal adds does not depend on what was pushed before. *)
Lemma fold_children_appends (container : option string)
    (children : list ts.NavigationTree) :
  Forall (λ child, ∀ container symbols,
            collectSymbols document child container symbols =
            symbols ++ collectSymbols document child container []) children →
  ∀ symbols,
    fold_left (λ symbols child, collectSymbols document child container symbols)
      children symbols =
    symbols ++
    concat ((λ child, collectSymbols document child container []) <$> children).
Proof.
  induction 1 as [|child children Hchild _ IH]; intros symbols; simpl.
  - by rewrite app_nil_r.
  - rewrite IH, (Hchild container symbols). by rewrite <- app_assoc.
Qed.

Lemma collectSymbols_appends (tree : ts.NavigationTree)
    (container : option string) (symbols : list SymbolInformation) :
  collectSymbols document tree container symbols =
  symbols ++ collectSymbols document tree container [].
Proof.
  revert container symbols.
  induction tree as [text kind spans|text kind spans children IH]
    using NavigationTree_children_ind; intros container symbols; simpl.
  - destruct (spans !! 0%nat), (spans !! (length spans - 1)%nat);
      simpl; by rewrite ?app_nil_r.
  - rewrite !(fold_children_appends _ _ IH).
    destruct (spans !! 0%nat), (spans !! (length spans - 1)%nat);
      simpl; by rewrite ?app_nil_r, <- ?app_assoc.
Qed.

Lemma fold_children (container : option string)
    (children : list ts.NavigationTree) (symbols : list SymbolInformation) :
  fold_left (λ symbols child, collectSymbols document child container symbols)
    children symbols =
  symbols ++
  concat ((λ child, collectSymbols document child container []) <$> children).
Proof.
  apply fold_children_appends, Forall_forall.
  intros child _. apply collectSymbols_appends.
Qed.

(** A tree without spans pushes nothing. *)
Lemma collectSymbols_spanless (tree : ts.NavigationTree)
    (container : option string) (symbols : list SymbolInformation) :
  spanless tree = true →
  collectSymbols document tree container symbols = symbols.
Proof.
  revert container symbols.
  induction tree as [text kind spans|text kind spans children IH]
    using NavigationTree_children_ind; intros container symbols; simpl.
  - by destruct spans.
  - destruct spans as [|span spans]; [simpl|done].
    intros Hall. revert symbols Hall.
    induction IH as [|child children Hchild _ IHc]; intros symbols Hall;
      simpl in *; [done|].
    apply andb_prop in Hall as [Hc Hcs].
    rewrite (Hchild _ _ Hc). by apply IHc.
Qed.

(** The record of a node with spans is pushed before its children are
    visited. *)
Lemma collectSymbols_spans (text kind : string) (spans : list ts.TextSpan)
    (childItems : option (list ts.NavigationTree))
    (container : option string) (symbols : list SymbolInformation)
    (first final : ts.TextSpan) :
  head spans = Some first → last spans = Some final →
  collectSymbols document (ts.Node text kind spans childItems)
    container symbols =
  fold_left (λ symbols child, collectSymbols document child (Some text) symbols)
    (default [] childItems)
    (symbols ++
     [SymbolInformation_create text (symbolKindFromString kind)
        (Range.create
           (positionAt document (ts.start first))
           (positionAt document (ts.start final + ts.length final)))
        (getURL document) container]).
Proof.
  intros Hfirst Hfinal. simpl.
  rewrite lookup_final, Hfinal.
  destruct spans as [|span spans]; [done|].
  simpl in *. injection Hfirst as ->.
  by destruct childItems.
Qed.

(** C5: in the pre-order traversal, a node without spans pushes no record
    and a node with spans pushes exactly one, whose range runs from the
    start of its first span to the end of its last span and whose container
    is the one handed down by its parent; in both cases the children are
    then visited in order with the node's own display name as container. *)
Theorem collectSymbols_node (text kind : string) (spans : list ts.TextSpan)
    (childItems : option (list ts.NavigationTree))
    (container : option string) (symbols : list SymbolInformation) :
  (spans = [] →
   collectSymbols document (ts.Node text kind spans childItems)
     container symbols =
   symbols ++
   concat ((λ child, collectSymbols document child (Some text) [])
           <$> default [] childItems))
  ∧
  (∀ first final, head spans = Some first → last spans = Some final →
   collectSymbols document (ts.Node text kind spans childItems)
     container symbols =
   symbols ++
   [SymbolInformation_create text (symbolKindFromString kind)
      (Range.create
         (positionAt document (ts.start first))
         (positionAt document (ts.start final + ts.length final)))
      (getURL document) container] ++
   concat ((λ child, collectSymbols document child (Some text) [])
           <$> default [] childItems)).
Proof.
  split.
  - intros ->. destruct childItems as [children|]; simpl.
    + apply fold_children.
    + symmetry. apply app_nil_r.
  - intros first final Hfirst Hfinal.
    rewrite (collectSymbols_spans _ _ _ _ _ _ first final Hfirst Hfinal).
    by rewrite fold_children, <- app_assoc.
Qed.

End Traversal.

(** ** Document symbols *)

Section Symbols.

Context `{Imports}.

Variable this : TypeScriptPlugin.
Variable document : Document.

(** C1: on a navigation tree with no span at any level the traversal
    pushes nothing, and [getDocumentSymbols] then reads the name of the
    first record of an empty array: it throws a [TypeError] instead of
    returning the empty sequence. *)
Theorem getDocumentSymbols_spanless_throws (lang : ts.LanguageService)
    (t t' : list Call) :
  getConfig (host this) "typescript.documentSymbols.enable" = true →
  getLanguageServiceForDocument document (createDocument this)
    (t ++ [host_getConfig "typescript.documentSymbols.enable"])
    = (Returned lang, t') →
  spanless (ts.getNavigationTree lang (getFilePath document)) = true →
  collectSymbols document (ts.getNavigationTree lang (getFilePath document))
    None [] = []
  ∧ getDocumentSymbols this document t =
    (Thrown (TypeError "Cannot read property 'name' of undefined"),
     t' ++ [lang_getNavigationTree (getFilePath document)]).
Proof.
  intros Henabled Hlang Hspanless.
  pose proof (collectSymbols_spanless document _ None [] Hspanless) as Hnone.
  split; [done|].
  reach_engine Henabled Hlang. by rewrite Hnone.
Qed.

(** What [getDocumentSymbols] returns once the traversal has pushed a
    first record. *)
Lemma getDocumentSymbols_returns (lang : ts.LanguageService)
    (t t' : list Call) (first : SymbolInformation)
    (rest : list SymbolInformation) :
  getConfig (host this) "typescript.documentSymbols.enable" = true →
  getLanguageServiceForDocument document (createDocument this)
    (t ++ [host_getConfig "typescript.documentSymbols.enable"])
    = (Returned lang, t') →
  collectSymbols document (ts.getNavigationTree lang (getFilePath document))
    None [] = first :: rest →
  getDocumentSymbols this document t =
  (Returned (reparent (name first) <$> rest),
   t' ++ [lang_getNavigationTree (getFilePath document)]).
Proof.
  intros Henabled Hlang Hsymbols.
  reach_engine Henabled Hlang. by rewrite Hsymbols.
Qed.

(** C4: the first record pushed is left out of the result; of the others,
    in order, a record whose container is the first record's name comes
    back with the container ["script"], and any other record comes back
    unchanged.  For a root ["R"] with spans, its child ["A"] with one span
    and the grandchild ["B"] with one span, the result is two records:
    ["A"] in the container ["script"] and ["B"] in the container ["A"]
    (the record factory is assumed to store the name it is given, and the
    container it is given when that is absent or a non-empty string). *)
Theorem getDocumentSymbols_reparents (lang : ts.LanguageService)
    (t t' : list Call) :
  getConfig (host this) "typescript.documentSymbols.enable" = true →
  getLanguageServiceForDocument document (createDocument this)
    (t ++ [host_getConfig "typescript.documentSymbols.enable"])
    = (Returned lang, t') →
  (∀ first rest,
     collectSymbols document (ts.getNavigationTree lang (getFilePath document))
       None [] = first :: rest →
     ∃ out,
       getDocumentSymbols this document t =
         (Returned out, t' ++ [lang_getNavigationTree (getFilePath document)])
       ∧ Forall2
           (λ symbol result,
              (containerName symbol = Some (name first) →
               result = {| name := name symbol; kind := kind symbol;
                           location := location symbol;
                           containerName := Some "script" |})
              ∧ (containerName symbol ≠ Some (name first) → result = symbol))
           rest out)
  ∧
  (∀ kindR kindA kindB spansR spanA spanB,
     (∀ n k r u c, name (SymbolInformation_create n k r u c) = n) →
     (∀ n k r u c, c ≠ Some "" →
        containerName (SymbolInformation_create n k r u c) = c) →
     spansR ≠ [] →
     ts.getNavigationTree lang (getFilePath document) =
       ts.Node "R" kindR spansR
         (Some [ts.Node "A" kindA [spanA]
                  (Some [ts.Node "B" kindB [spanB] None])]) →
     ∃ a b,
       getDocumentSymbols this document t =
         (Returned [a; b], t' ++ [lang_getNavigationTree (getFilePath document)])
       ∧ name a = "A" ∧ containerName a = Some "script"
       ∧ name b = "B" ∧ containerName b = Some "A").
Proof.
  intros Henabled Hlang. split.
  - intros first rest Hsymbols.
    eexists. split; [by apply (getDocumentSymbols_returns lang)|].
    apply Forall2_fmap_intro. intros symbol. unfold reparent.
    by case_decide.
  - intros kindR kindA kindB spansR spanA spanB Hname Hcontainer HR Htree.
    destruct spansR as [|spanR spansR]; [done|].
    destruct (last (spanR :: spansR)) as [final|] eqn:Hfinal;
      [|by apply last_None in Hfinal].
    pose proof (getDocumentSymbols_returns lang t t') as Hreturns.
    rewrite Htree in Hreturns.
    rewrite (collectSymbols_spans document _ _ (spanR :: spansR) _ _ _
               spanR final eq_refl Hfinal) in Hreturns.
    simpl in Hreturns.
    rewrite (Hreturns _ _ Henabled Hlang eq_refl). simpl.
    do 2 eexists. split; [reflexivity|].
    unfold reparent. rewrite !Hname, !Hcontainer by done.
    rewrite decide_True by done.
    rewrite decide_False by done.
    simpl. by rewrite Hname, Hcontainer.
Qed.

(** C9: whenever the traversal pushes at least one record, the first one
    is left out of the result and the others come back one for one, in
    order, with their name, kind and location; no test is made that the
    first record is the root.  When the root has no span and its one child
    has one, the first record is the child's, and the result is empty. *)
Theorem getDocumentSymbols_drops_first (lang : ts.LanguageService)
    (t t' : list Call) :
  getConfig (host this) "typescript.documentSymbols.enable" = true →
  getLanguageServiceForDocument document (createDocument this)
    (t ++ [host_getConfig "typescript.documentSymbols.enable"])
    = (Returned lang, t') →
  (∀ first rest,
     collectSymbols document (ts.getNavigationTree lang (getFilePath document))
       None [] = first :: rest →
     ∃ out,
       getDocumentSymbols this document t =
         (Returned out, t' ++ [lang_getNavigationTree (getFilePath document)])
       ∧ Forall2
           (λ symbol result,
              name result = name symbol ∧ kind result = kind symbol
              ∧ location result = location symbol)
           rest out)
  ∧
  (∀ textR kindR textA kindA spanA,
     ts.getNavigationTree lang (getFilePath document) =
       ts.Node textR kindR [] (Some [ts.Node textA kindA [spanA] None]) →
     collectSymbols document (ts.getNavigationTree lang (getFilePath document))
       None [] =
       [SymbolInformation_create textA (symbolKindFromString kindA)
          (Range.create
             (positionAt document (ts.start spanA))
             (positionAt document (ts.start spanA + ts.length spanA)))
          (getURL document) (Some textR)]
     ∧ getDocumentSymbols this document t =
         (Returned [], t' ++ [lang_getNavigationTree (getFilePath document)])).
Proof.
  intros Henabled Hlang. split.
  - intros first rest Hsymbols.
    eexists. split; [by apply (getDocumentSymbols_returns lang)|].
    apply Forall2_fmap_intro. intros symbol. unfold reparent.
    by case_decide.
  - intros textR kindR textA kindA spanA Htree.
    assert (collectSymbols document
              (ts.getNavigationTree lang (getFilePath document)) None [] =
            [SymbolInformation_create textA (symbolKindFromString kindA)
               (Range.create
                  (positionAt document (ts.start spanA))
                  (positionAt document (ts.start spanA + ts.length spanA)))
               (getURL document) (Some textR)]) as Hsymbols.
    { by rewrite Htree. }
    split; [done|].
    by rewrite (getDocumentSymbols_returns lang t t' _ [] Henabled Hlang Hsymbols).
Qed.

End Symbols.

(** ** Configuration gating *)

Section Gating.

Context `{Imports}.

Variable this : TypeScriptPlugin.
Variable document : Document.

(** C3: an operation whose own flag is false returns the empty sequence
    (the absent result for hover) after the one configuration lookup: the
    trace gains that lookup and nothing else, so no call reaches the
    document factory or the engine. *)
Theorem disabled_operation_makes_no_call (position : Position)
    (triggerCharacter : option string) (t : list Call) :
  (getConfig (host this) "typescript.diagnostics.enable" = false →
   getDiagnostics this document t =
   (Returned [], t ++ [host_getConfig "typescript.diagnostics.enable"]))
  ∧ (getConfig (host this) "typescript.hover.enable" = false →
     doHover this document position t =
     (Returned None, t ++ [host_getConfig "typescript.hover.enable"]))
  ∧ (getConfig (host this) "typescript.documentSymbols.enable" = false →
     getDocumentSymbols this document t =
     (Returned [], t ++ [host_getConfig "typescript.documentSymbols.enable"]))
  ∧ (getConfig (host this) "typescript.completions.enable" = false →
     getCompletions this document position triggerCharacter t =
     (Returned [], t ++ [host_getConfig "typescript.completions.enable"]))
  ∧ (∀ key, bridge_calls (t ++ [host_getConfig key]) = bridge_calls t).
Proof.
  repeat split; try (intros Hflag; run_operation; by rewrite Hflag).
  intros key. by apply filter_snoc_false.
Qed.

End Gating.

(** ** Diagnostics *)

Section Diagnostics.

Context `{Imports}.

Variable this : TypeScriptPlugin.
Variable document : Document.

(** The engine's diagnostics in the order [getDiagnostics] gathers them. *)
Lemma getDiagnostics_returns (lang : ts.LanguageService) (t t' : list Call) :
  getConfig (host this) "typescript.diagnostics.enable" = true →
  getLanguageServiceForDocument document (createDocument this)
    (t ++ [host_getConfig "typescript.diagnostics.enable"])
    = (Returned lang, t') →
  getDiagnostics this document t =
  (Returned
     ((λ diagnostic,
         {| range := convertRange document (OfDiagnostic diagnostic);
            severity := Error;
            source := if isTypescript document then "ts" else "js";
            message := flattenDiagnosticMessageText
                         (ts.messageText diagnostic) newline |})
      <$> (ts.getSyntacticDiagnostics lang (getFilePath document) ++
           if isTypescript document
           then ts.getSemanticDiagnostics lang (getFilePath document)
           else [])),
   t' ++ lang_getSyntacticDiagnostics (getFilePath document) ::
         if isTypescript document
         then [lang_getSemanticDiagnostics (getFilePath document)]
         else []).
Proof.
  intros Henabled Hlang. reach_engine Henabled Hlang.
  destruct (isTypescript document); simpl.
  - by rewrite <- app_assoc.
  - by rewrite app_nil_r.
Qed.

(** C2, amended: every diagnostic [getDiagnostics] returns has severity
    [Error] whatever the engine's category, and its source tag is ["ts"]
    when the document's script kind is [TS] and ["js"] otherwise; when the
    engine is reached, each comes from one diagnostic of the engine, with
    its range converted and its message text flattened with line feeds. *)
Theorem getDiagnostics_severity_source (t t' : list Call)
    (out : list Diagnostic) :
  getDiagnostics this document t = (Returned out, t') →
  Forall (λ d, severity d = Error ∧
               source d = if isTypescript document then "ts" else "js") out
  ∧ (∀ lang t1,
       getConfig (host this) "typescript.diagnostics.enable" = true →
       getLanguageServiceForDocument document (createDocument this)
         (t ++ [host_getConfig "typescript.diagnostics.enable"])
         = (Returned lang, t1) →
       Forall2
         (λ diagnostic d,
            range d = convertRange document (OfDiagnostic diagnostic)
            ∧ message d = flattenDiagnosticMessageText
                            (ts.messageText diagnostic) newline)
         (ts.getSyntacticDiagnostics lang (getFilePath document) ++
          if isTypescript document
          then ts.getSemanticDiagnostics lang (getFilePath document)
          else [])
         out).
Proof.
  intros Hout. split.
  - revert Hout. run_operation.
    destruct (getConfig (host this) "typescript.diagnostics.enable"); simpl.
    + destruct (getLanguageServiceForDocument _ _ _) as [[lang|e] t1];
        [|done].
      destruct (isTypescript document); simpl; intros [= <- _];
        apply Forall_fmap, Forall_forall; done.
    + by intros [= <- _].
  - intros lang t1 Henabled Hlang.
    rewrite (getDiagnostics_returns lang t t1 Henabled Hlang) in Hout.
    injection Hout as <- _.
    by apply Forall2_fmap_intro.
Qed.

(** C6: an enabled [getDiagnostics] always asks the engine for the
    syntactic diagnostics and asks for the semantic ones exactly when the
    script kind is [TS]; the result lists the converted syntactic
    diagnostics first and the semantic ones after them, each group in the
    engine's order. *)
Theorem getDiagnostics_queries (lang : ts.LanguageService)
    (t t' : list Call) :
  getConfig (host this) "typescript.diagnostics.enable" = true →
  getLanguageServiceForDocument document (createDocument this)
    (t ++ [host_getConfig "typescript.diagnostics.enable"])
    = (Returned lang, t') →
  ∃ syntactic semantic,
    getDiagnostics this document t =
      (Returned (syntactic ++ semantic),
       t' ++ lang_getSyntacticDiagnostics (getFilePath document) ::
             if isTypescript document
             then [lang_getSemanticDiagnostics (getFilePath document)]
             else [])
    ∧ Forall2
        (λ diagnostic d,
           range d = convertRange document (OfDiagnostic diagnostic)
           ∧ message d = flattenDiagnosticMessageText
                           (ts.messageText diagnostic) newline)
        (ts.getSyntacticDiagnostics lang (getFilePath document)) syntactic
    ∧ Forall2
        (λ diagnostic d,
           range d = convertRange document (OfDiagnostic diagnostic)
           ∧ message d = flattenDiagnosticMessageText
                           (ts.messageText diagnostic) newline)
        (if isTypescript document
         then ts.getSemanticDiagnostics lang (getFilePath document)
         else [])
        semantic.
Proof.
  intros Henabled Hlang.
  rewrite (getDiagnostics_returns lang t t' Henabled Hlang).
  rewrite fmap_app.
  do 2 eexists. split; [reflexivity|].
  split; by apply Forall2_fmap_intro.
Qed.

End Diagnostics.

(** ** Hover *)

Section HoverInfo.

Context `{Imports}.

Variable this : TypeScriptPlugin.
Variable document : Document.
Variable position : Position.

(** C7: an enabled [doHover] asks the engine for the quick info at the
    offset of the position.  Without quick info it returns the absent
    result and does not throw; with quick info it returns a hover whose
    range is the conversion of the info's text span and whose content is
    the display parts rendered as a string. *)
Theorem doHover_result (lang : ts.LanguageService) (t t' : list Call) :
  getConfig (host this) "typescript.hover.enable" = true →
  getLanguageServiceForDocument document (createDocument this)
    (t ++ [host_getConfig "typescript.hover.enable"]) = (Returned lang, t') →
  (ts.getQuickInfoAtPosition lang (getFilePath document)
     (offsetAt document position) = None →
   doHover this document position t =
   (Returned None,
    t' ++ [lang_getQuickInfoAtPosition (getFilePath document)
             (offsetAt document position)]))
  ∧
  (∀ info,
     ts.getQuickInfoAtPosition lang (getFilePath document)
       (offsetAt document position) = Some info →
     ∃ hover,
       doHover this document position t =
         (Returned (Some hover),
          t' ++ [lang_getQuickInfoAtPosition (getFilePath document)
                   (offsetAt document position)])
       ∧ hoverRange hover = convertRange document (OfTextSpan (ts.textSpan info))
       ∧ value (contents hover) = displayPartsToString (ts.displayParts info)).
Proof.
  intros Henabled Hlang. split.
  - intros Hnone. reach_engine Henabled Hlang. by rewrite Hnone.
  - intros info Hinfo. eexists. split.
    + reach_engine Henabled Hlang. rewrite Hinfo. reflexivity.
    + done.
Qed.

(** C10: whenever [doHover] returns a hover, its content carries the
    language label ["ts"], whatever the script kind of the document. *)
Theorem doHover_language (t t' : list Call) (hover : Hover) :
  doHover this document position t = (Returned (Some hover), t') →
  language (contents hover) = "ts".
Proof.
  run_operation.
  destruct (getConfig (host this) "typescript.hover.enable"); simpl; [|done].
  destruct (getLanguageServiceForDocument _ _ _) as [[lang|e] t1]; [|done].
  destruct (ts.getQuickInfoAtPosition _ _ _) as [info|]; [|done].
  by intros [= <- _].
Qed.

End HoverInfo.

(** ** Completions *)

Section Completions.

Context `{Imports}.

Variable this : TypeScriptPlugin.
Variable document : Document.
Variable position : Position.
Variable triggerCharacter : option string.

(** C8: an enabled [getCompletions] asks the engine for the completions
    at the offset of the position, with module exports included and the
    trigger character as given.  No answer gives the empty sequence; an
    answer gives one item per entry, in order: the label is the entry's
    name, the kind and the commit characters are those of the entry's
    kind, the sort text is the entry's, and the item is preselected as the
    entry is recommended. *)
Theorem getCompletions_result (lang : ts.LanguageService)
    (t t' : list Call) :
  getConfig (host this) "typescript.completions.enable" = true →
  getLanguageServiceForDocument document (createDocument this)
    (t ++ [host_getConfig "typescript.completions.enable"])
    = (Returned lang, t') →
  ∃ out,
    getCompletions this document position triggerCharacter t =
      (Returned out,
       t' ++ [lang_getCompletionsAtPosition (getFilePath document)
                (offsetAt document position)
                {| ts.includeCompletionsForModuleExports := true;
                   ts.triggerCharacter := triggerCharacter |};
              console_log
                (ts.getCompletionsAtPosition lang (getFilePath document)
                   (offsetAt document position)
                   {| ts.includeCompletionsForModuleExports := true;
                      ts.triggerCharacter := triggerCharacter |})])
    ∧ (ts.getCompletionsAtPosition lang (getFilePath document)
         (offsetAt document position)
         {| ts.includeCompletionsForModuleExports := true;
            ts.triggerCharacter := triggerCharacter |} = None →
       out = [])
    ∧ (∀ completions,
         ts.getCompletionsAtPosition lang (getFilePath document)
           (offsetAt document position)
           {| ts.includeCompletionsForModuleExports := true;
              ts.triggerCharacter := triggerCharacter |} = Some completions →
         Forall2
           (λ comp item,
              label item = ts.name comp
              ∧ itemKind item =
                  scriptElementKindToCompletionItemKind (ts.entryKind comp)
              ∧ sortText item = ts.sortText comp
              ∧ commitCharacters item =
                  getCommitCharactersForScriptElement (ts.entryKind comp)
              ∧ preselect item = ts.isRecommended comp)
           (ts.entries completions) out).
Proof.
  intros Henabled Hlang.
  reach_engine Henabled Hlang.
  destruct (ts.getCompletionsAtPosition _ _ _ _) as [completions|];
    eexists; (split; [by rewrite <- app_assoc|]); (split; [done|]).
  - intros ? [= <-]. by apply Forall2_fmap_intro.
  - done.
Qed.

End Completions.

(** ** The properties on the sample collaborators *)

(** A node in two fragments pushes one record that covers both fragments,
    then its child's record. *)
Lemma collectSymbols_node_witness :
  collectSymbols (H := Sample.imports (Sample.tree_engine Sample.module_tree))
    Sample.untyped
    (ts.Node "C" "class" [Sample.span 10 8; Sample.span 30 6]
       (Some Sample.fragmented_children))
    (Some "App.svelte.ts") [] =
  [ {| name := "C"; kind := 5;
       location :=
         {| uri := "file:///App.svelte";
            locRange := Range.create {| line := 0; character := 10 |}
                                     {| line := 0; character := 36 |} |};
       containerName := Some "App.svelte.ts" |};
    {| name := "m"; kind := 13;
       location :=
         {| uri := "file:///App.svelte";
            locRange := Range.create {| line := 0; character := 12 |}
                                     {| line := 0; character := 15 |} |};
       containerName := Some "C" |} ].
Proof.
  exact (proj2 (@collectSymbols_node
                  (Sample.imports (Sample.tree_engine Sample.module_tree))
                  Sample.untyped "C" "class"
                  [Sample.span 10 8; Sample.span 30 6]
                  (Some Sample.fragmented_children) (Some "App.svelte.ts") [])
           (Sample.span 10 8) (Sample.span 30 6) eq_refl eq_refl).
Defined.

(** Without spans in the tree the operation throws. *)
Lemma getDocumentSymbols_spanless_throws_witness :
  collectSymbols (H := Sample.imports (Sample.tree_engine Sample.spanless_tree))
    Sample.untyped Sample.spanless_tree None [] = []
  ∧ getDocumentSymbols
      (H := Sample.imports (Sample.tree_engine Sample.spanless_tree))
      (Sample.plugin (Sample.tree_engine Sample.spanless_tree)
         Sample.all_enabled)
      Sample.untyped [] =
    (Thrown (TypeError "Cannot read property 'name' of undefined"),
     host_getConfig "typescript.documentSymbols.enable" ::
     Sample.factory_trace ++ [lang_getNavigationTree (Some "/App.svelte.ts")]).
Proof.
  exact (@getDocumentSymbols_spanless_throws
           (Sample.imports (Sample.tree_engine Sample.spanless_tree))
           (Sample.plugin (Sample.tree_engine Sample.spanless_tree)
              Sample.all_enabled)
           Sample.untyped (Sample.tree_engine Sample.spanless_tree) []
           (host_getConfig "typescript.documentSymbols.enable" ::
            Sample.factory_trace)
           eq_refl eq_refl eq_refl).
Defined.

(** The root ["R"], its child ["A"] and the grandchild ["B"]. *)
Lemma getDocumentSymbols_reparents_witness :
  ∃ a b,
    getDocumentSymbols
      (H := Sample.imports (Sample.tree_engine Sample.family_tree))
      (Sample.plugin (Sample.tree_engine Sample.family_tree)
         Sample.all_enabled)
      Sample.untyped [] =
    (Returned [a; b],
     (host_getConfig "typescript.documentSymbols.enable" ::
      Sample.factory_trace) ++ [lang_getNavigationTree (Some "/App.svelte.ts")])
    ∧ name a = "A" ∧ containerName a = Some "script"
    ∧ name b = "B" ∧ containerName b = Some "A".
Proof.
  refine (proj2 (@getDocumentSymbols_reparents
                   (Sample.imports (Sample.tree_engine Sample.family_tree))
                   (Sample.plugin (Sample.tree_engine Sample.family_tree)
                      Sample.all_enabled)
                   Sample.untyped (Sample.tree_engine Sample.family_tree) []
                   (host_getConfig "typescript.documentSymbols.enable" ::
                    Sample.factory_trace)
                   eq_refl eq_refl)
            "module" "class" "method" [Sample.span 0 5]
            (Sample.span 0 5) (Sample.span 1 2) _ _ _ eq_refl).
  - intros; reflexivity.
  - intros n k r u c Hc. simpl. by rewrite decide_False.
  - discriminate.
Defined.

(** A root without spans: the child's record is pushed first and the
    result is empty. *)
Lemma getDocumentSymbols_drops_first_witness :
  collectSymbols (H := Sample.imports (Sample.tree_engine Sample.headless_tree))
    Sample.untyped Sample.headless_tree None [] =
  [ {| name := "x"; kind := 13;
       location :=
         {| uri := "file:///App.svelte";
            locRange := Range.create {| line := 0; character := 4 |}
                                     {| line := 0; character := 5 |} |};
       containerName := Some "App.svelte.ts" |} ]
  ∧ getDocumentSymbols
      (H := Sample.imports (Sample.tree_engine Sample.headless_tree))
      (Sample.plugin (Sample.tree_engine Sample.headless_tree)
         Sample.all_enabled)
      Sample.untyped [] =
    (Returned [],
     (host_getConfig "typescript.documentSymbols.enable" ::
      Sample.factory_trace) ++ [lang_getNavigationTree (Some "/App.svelte.ts")]).
Proof.
  exact (proj2 (@getDocumentSymbols_drops_first
                  (Sample.imports (Sample.tree_engine Sample.headless_tree))
                  (Sample.plugin (Sample.tree_engine Sample.headless_tree)
                     Sample.all_enabled)
                  Sample.untyped (Sample.tree_engine Sample.headless_tree) []
                  (host_getConfig "typescript.documentSymbols.enable" ::
                   Sample.factory_trace)
                  eq_refl eq_refl)
           "App.svelte.ts" "module" "x" "let" (Sample.span 4 1) eq_refl).
Defined.

(** With every flag off, each operation stops at its configuration lookup. *)
Lemma disabled_operation_makes_no_call_witness :
  getDiagnostics (H := Sample.imports Sample.checker)
    (Sample.plugin Sample.checker Sample.all_disabled) Sample.typed [] =
    (Returned [], [host_getConfig "typescript.diagnostics.enable"])
  ∧ doHover (H := Sample.imports Sample.checker)
      (Sample.plugin Sample.checker Sample.all_disabled) Sample.typed
      {| line := 0; character := 4 |} [] =
    (Returned None, [host_getConfig "typescript.hover.enable"])
  ∧ getDocumentSymbols (H := Sample.imports Sample.checker)
      (Sample.plugin Sample.checker Sample.all_disabled) Sample.typed [] =
    (Returned [], [host_getConfig "typescript.documentSymbols.enable"])
  ∧ getCompletions (H := Sample.imports Sample.checker)
      (Sample.plugin Sample.checker Sample.all_disabled) Sample.typed
      {| line := 0; character := 4 |} (Some ".") [] =
    (Returned [], [host_getConfig "typescript.completions.enable"]).
Proof.
  destruct (@disabled_operation_makes_no_call
              (Sample.imports Sample.checker)
              (Sample.plugin Sample.checker Sample.all_disabled) Sample.typed
              {| line := 0; character := 4 |} (Some ".") [])
    as (Hdiagnostics & Hhover & Hsymbols & Hcompletions & _).
  split; [|split; [|split]].
  - exact (Hdiagnostics eq_refl).
  - exact (Hhover eq_refl).
  - exact (Hsymbols eq_refl).
  - exact (Hcompletions eq_refl).
Defined.

(** C2 as worded fails: on a typed document the tag is ["ts"], not
    ["typed"]. *)
Lemma getDiagnostics_not_tagged_typed :
  ¬ tagged_typed_or_untyped (H := Sample.imports Sample.checker)
      (Sample.plugin Sample.checker Sample.all_enabled) Sample.typed [].
Proof.
  intros Htagged.
  eassert (getDiagnostics (H := Sample.imports Sample.checker)
             (Sample.plugin Sample.checker Sample.all_enabled)
             Sample.typed [] = _) as Hrun
    by (vm_compute; reflexivity).
  specialize (Htagged _ _ Hrun).
  apply Forall_cons_1 in Htagged as [[_ Hsource] _].
  vm_compute in Hsource. discriminate Hsource.
Qed.

(** A typed document with one syntactic and one semantic diagnostic: both
    come back as errors tagged ["ts"]. *)
Lemma getDiagnostics_severity_source_witness :
  getDiagnostics (H := Sample.imports Sample.checker)
    (Sample.plugin Sample.checker Sample.all_enabled) Sample.typed [] =
  (Returned
     [ {| range := Range.create {| line := 0; character := 9 |}
                                {| line := 0; character := 10 |};
          severity := Error; source := "ts"; message := "';' expected." |};
       {| range := Range.create {| line := 0; character := 4 |}
                                {| line := 0; character := 5 |};
          severity := Error; source := "ts";
          message := "'x' is declared but never used." |} ],
   host_getConfig "typescript.diagnostics.enable" ::
   Sample.factory_trace ++
   [lang_getSyntacticDiagnostics (Some "/App.svelte.ts");
    lang_getSemanticDiagnostics (Some "/App.svelte.ts")])
  ∧ Forall (λ d, severity d = Error ∧
                 source d = if isTypescript (H := Sample.imports Sample.checker)
                                 Sample.typed
                            then "ts" else "js")
      [ {| range := Range.create {| line := 0; character := 9 |}
                                 {| line := 0; character := 10 |};
           severity := Error; source := "ts"; message := "';' expected." |};
        {| range := Range.create {| line := 0; character := 4 |}
                                 {| line := 0; character := 5 |};
           severity := Error; source := "ts";
           message := "'x' is declared but never used." |} ].
Proof.
  assert (getDiagnostics (H := Sample.imports Sample.checker)
            (Sample.plugin Sample.checker Sample.all_enabled) Sample.typed [] =
          (Returned
             [ {| range := Range.create {| line := 0; character := 9 |}
                                        {| line := 0; character := 10 |};
                  severity := Error; source := "ts";
                  message := "';' expected." |};
               {| range := Range.create {| line := 0; character := 4 |}
                                        {| line := 0; character := 5 |};
                  severity := Error; source := "ts";
                  message := "'x' is declared but never used." |} ],
           host_getConfig "typescript.diagnostics.enable" ::
           Sample.factory_trace ++
           [lang_getSyntacticDiagnostics (Some "/App.svelte.ts");
            lang_getSemanticDiagnostics (Some "/App.svelte.ts")])) as Hrun
    by (vm_compute; reflexivity).
  split; [exact Hrun|].
  exact (proj1 (@getDiagnostics_severity_source
                  (Sample.imports Sample.checker)
                  (Sample.plugin Sample.checker Sample.all_enabled)
                  Sample.typed [] _ _ Hrun)).
Defined.

(** On the typed document both queries are made, on the untyped one only
    the syntactic query. *)
Lemma getDiagnostics_queries_witness :
  ∃ syntactic semantic,
    getDiagnostics (H := Sample.imports Sample.checker)
      (Sample.plugin Sample.checker Sample.all_enabled) Sample.untyped [] =
    (Returned (syntactic ++ semantic),
     (host_getConfig "typescript.diagnostics.enable" :: Sample.factory_trace)
     ++ [lang_getSyntacticDiagnostics (Some "/App.svelte.ts")])
    ∧ Forall2
        (λ diagnostic d,
           range d = convertRange (Imports := Sample.imports Sample.checker)
                       Sample.untyped (OfDiagnostic diagnostic)
           ∧ message d = flattenDiagnosticMessageText
                           (Imports := Sample.imports Sample.checker)
                           (ts.messageText diagnostic) newline)
        [Sample.expected_semicolon] syntactic
    ∧ Forall2
        (λ diagnostic d,
           range d = convertRange (Imports := Sample.imports Sample.checker)
                       Sample.untyped (OfDiagnostic diagnostic)
           ∧ message d = flattenDiagnosticMessageText
                           (Imports := Sample.imports Sample.checker)
                           (ts.messageText diagnostic) newline)
        [] semantic.
Proof.
  exact (@getDiagnostics_queries
           (Sample.imports Sample.checker)
           (Sample.plugin Sample.checker Sample.all_enabled)
           Sample.untyped Sample.checker []
           (host_getConfig "typescript.diagnostics.enable" ::
            Sample.factory_trace)
           eq_refl eq_refl).
Defined.

(** Hovering over [x] in [let x: number], and hovering where the engine
    has nothing to say. *)
Lemma doHover_result_witness :
  doHover (H := Sample.imports (Sample.informer None))
    (Sample.plugin (Sample.informer None) Sample.all_enabled)
    Sample.typed {| line := 0; character := 7 |} [] =
  (Returned None,
   (host_getConfig "typescript.hover.enable" :: Sample.factory_trace) ++
   [lang_getQuickInfoAtPosition (Some "/App.svelte.ts") 7])
  ∧ ∃ hover,
      doHover (H := Sample.imports (Sample.informer (Some Sample.info_x)))
        (Sample.plugin (Sample.informer (Some Sample.info_x))
           Sample.all_enabled)
        Sample.typed {| line := 0; character := 4 |} [] =
      (Returned (Some hover),
       (host_getConfig "typescript.hover.enable" :: Sample.factory_trace) ++
       [lang_getQuickInfoAtPosition (Some "/App.svelte.ts") 4])
      ∧ hoverRange hover = Range.create {| line := 0; character := 4 |}
                                        {| line := 0; character := 5 |}
      ∧ value (contents hover) = "let x: number".
Proof.
  split.
  - exact (proj1 (@doHover_result
                    (Sample.imports (Sample.informer None))
                    (Sample.plugin (Sample.informer None) Sample.all_enabled)
                    Sample.typed {| line := 0; character := 7 |}
                    (Sample.informer None) []
                    (host_getConfig "typescript.hover.enable" ::
                     Sample.factory_trace)
                    eq_refl eq_refl)
             eq_refl).
  - exact (proj2 (@doHover_result
                    (Sample.imports (Sample.informer (Some Sample.info_x)))
                    (Sample.plugin (Sample.informer (Some Sample.info_x))
                       Sample.all_enabled)
                    Sample.typed {| line := 0; character := 4 |}
                    (Sample.informer (Some Sample.info_x)) []
                    (host_getConfig "typescript.hover.enable" ::
                     Sample.factory_trace)
                    eq_refl eq_refl)
             Sample.info_x eq_refl).
Defined.

(** On an untyped document the hover is labelled ["ts"] all the same. *)
Lemma doHover_language_witness :
  isTypescript (H := Sample.imports (Sample.informer (Some Sample.info_x)))
    Sample.untyped = false
  ∧ doHover (H := Sample.imports (Sample.informer (Some Sample.info_x)))
      (Sample.plugin (Sample.informer (Some Sample.info_x)) Sample.all_enabled)
      Sample.untyped {| line := 0; character := 4 |} [] =
    (Returned
       (Some {| hoverRange := Range.create {| line := 0; character := 4 |}
                                           {| line := 0; character := 5 |};
                contents := {| language := "ts"; value := "let x: number" |} |}),
     (host_getConfig "typescript.hover.enable" :: Sample.factory_trace) ++
     [lang_getQuickInfoAtPosition (Some "/App.svelte.ts") 4])
  ∧ language
      (contents
         {| hoverRange := Range.create {| line := 0; character := 4 |}
                                       {| line := 0; character := 5 |};
            contents := {| language := "ts"; value := "let x: number" |} |})
    = "ts".
Proof.
  split; [vm_compute; reflexivity|].
  assert (doHover (H := Sample.imports (Sample.informer (Some Sample.info_x)))
            (Sample.plugin (Sample.informer (Some Sample.info_x))
               Sample.all_enabled)
            Sample.untyped {| line := 0; character := 4 |} [] =
          (Returned
             (Some {| hoverRange :=
                        Range.create {| line := 0; character := 4 |}
                                     {| line := 0; character := 5 |};
                      contents := {| language := "ts";
                                     value := "let x: number" |} |}),
           (host_getConfig "typescript.hover.enable" :: Sample.factory_trace) ++
           [lang_getQuickInfoAtPosition (Some "/App.svelte.ts") 4])) as Hrun
    by (vm_compute; reflexivity).
  split; [exact Hrun|].
  exact (@doHover_language
           (Sample.imports (Sample.informer (Some Sample.info_x)))
           (Sample.plugin (Sample.informer (Some Sample.info_x))
              Sample.all_enabled)
           Sample.untyped {| line := 0; character := 4 |} [] _ _ Hrun).
Defined.

(** The entry [foo], a recommended method with sort text ["0"]. *)
Lemma getCompletions_result_witness :
  ∃ out,
    getCompletions
      (H := Sample.imports (Sample.completer (Some Sample.only_foo)))
      (Sample.plugin (Sample.completer (Some Sample.only_foo))
         Sample.all_enabled)
      Sample.typed {| line := 0; character := 4 |} (Some ".") [] =
    (Returned out,
     (host_getConfig "typescript.completions.enable" :: Sample.factory_trace)
     ++ [lang_getCompletionsAtPosition (Some "/App.svelte.ts") 4
           {| ts.includeCompletionsForModuleExports := true;
              ts.triggerCharacter := Some "." |};
         console_log (Some Sample.only_foo)])
    ∧ Forall2
        (λ comp item,
           label item = ts.name comp
           ∧ itemKind item = 2
           ∧ sortText item = ts.sortText comp
           ∧ commitCharacters item = Some ["."; ","; "("]
           ∧ preselect item = ts.isRecommended comp)
        [Sample.foo] out.
Proof.
  destruct (@getCompletions_result
              (Sample.imports (Sample.completer (Some Sample.only_foo)))
              (Sample.plugin (Sample.completer (Some Sample.only_foo))
                 Sample.all_enabled)
              Sample.typed {| line := 0; character := 4 |} (Some ".")
              (Sample.completer (Some Sample.only_foo)) []
              (host_getConfig "typescript.completions.enable" ::
               Sample.factory_trace)
              eq_refl eq_refl)
    as (out & Hrun & _ & Hentries).
  exists out. split; [exact Hrun|].
  specialize (Hentries Sample.only_foo eq_refl).
  apply Forall2_cons_inv_l in Hentries
    as (item & rest & (Hlabel & Hkind & Hsort & Hcommit & Hpre) & Hrest & ->).
  apply Forall2_nil_inv_l in Hrest as ->.
  repeat constructor; assumption.
Defined.

(** * Further properties of the traversal and of the operations *)

Lemma sum_list_with_lengths {A B} (f : A → list B) (g : A → nat) (l : list A) :
  Forall (λ x, length (f x) = g x) l →
  length (concat (f <$> l)) = sum_list_with g l.
Proof.
  induction 1 as [|x l Hx _ IH]; simpl; [done|].
  rewrite length_app, Hx. f_equal. exact IH.
Qed.

Lemma locks_follow_opens_app (previous : option Call) (t : list Call)
    (item : TextDocumentItem) :
  locks_follow_opens previous t = true →
  locks_follow_opens previous
    (t ++ [host_openDocument item; host_lockDocument (itemUri item)]) = true.
Proof.
  revert previous. induction t as [|c t IH]; intros previous; simpl.
  - intros _. by rewrite bool_decide_eq_true_2.
  - intros [Hc Ht]%andb_prop. rewrite Hc. simpl. by apply IH.
Qed.

Section TraversalCount.

Context `{Imports}.

Variable document : Document.

(** The records a node adds to an empty array. *)
Lemma collectSymbols_fresh (text kind : string) (spans : list ts.TextSpan)
    (childItems : option (list ts.NavigationTree))
    (container : option string) :
  collectSymbols document (ts.Node text kind spans childItems) container [] =
  match head spans, last spans with
  | Some first, Some final =>
      [SymbolInformation_create text (symbolKindFromString kind)
         (Range.create
            (positionAt document (ts.start first))
            (positionAt document (ts.start final + ts.length final)))
         (getURL document) container]
  | _, _ => []
  end ++
  concat ((λ child, collectSymbols document child (Some text) [])
          <$> default [] childItems).
Proof.
  destruct spans as [|span spans].
  - simpl. destruct childItems as [children|]; simpl; [|done].
    by rewrite fold_children.
  - destruct (last (span :: spans)) as [final|] eqn:Hfinal;
      [|by apply last_None in Hfinal].
    rewrite (collectSymbols_spans document _ _ (span :: spans) _ _ _
               span final eq_refl Hfinal).
    by rewrite fold_children.
Qed.

Lemma collectSymbols_fresh_length (tree : ts.NavigationTree)
    (container : option string) :
  length (collectSymbols document tree container []) = spanned tree.
Proof.
  revert container.
  induction tree as [text kind spans|text kind spans children IH]
    using NavigationTree_children_ind; intros container;
    rewrite collectSymbols_fresh, length_app.
  - destruct spans as [|span spans]; [done|].
    destruct (last (span :: spans)) eqn:Hfinal;
      [done|by apply last_None in Hfinal].
  - simpl default.
    rewrite (sum_list_with_lengths _ spanned).
    + destruct spans as [|span spans]; [done|].
      destruct (last (span :: spans)) eqn:Hfinal;
        [done|by apply last_None in Hfinal].
    + eapply Forall_impl; [exact IH|]. intros child Hchild. apply Hchild.
Qed.

Lemma spanned_spanless (tree : ts.NavigationTree) :
  spanned tree = 0%nat ↔ spanless tree = true.
Proof.
  induction tree as [text kind spans|text kind spans children IH]
    using NavigationTree_children_ind; simpl.
  - by destruct spans.
  - destruct spans as [|span spans]; [simpl|done].
    induction IH as [|child children Hchild _ IHc]; simpl; [done|].
    rewrite andb_true_iff, <- Hchild, <- IHc. lia.
Qed.

(** X1: the traversal pushes one record for each node that has a span:
    the array grows by the number of such nodes, and it is left as it was
    exactly when no node of the tree has a span. *)
Theorem collectSymbols_one_per_spanned_node (tree : ts.NavigationTree)
    (container : option string) (symbols : list SymbolInformation) :
  length (collectSymbols document tree container symbols) =
    (length symbols + spanned tree)%nat
  ∧ (collectSymbols document tree container symbols = symbols
     ↔ spanless tree = true).
Proof.
  assert (length (collectSymbols document tree container symbols) =
          (length symbols + spanned tree)%nat) as Hlength.
  { rewrite collectSymbols_appends, length_app.
    by rewrite collectSymbols_fresh_length. }
  split; [exact Hlength|]. split.
  - intros Hsame. rewrite Hsame in Hlength.
    apply spanned_spanless. lia.
  - apply collectSymbols_spanless.
Qed.

(** X2: the records pushed before a traversal stay where they are, and
    what the traversal pushes after them does not depend on them. *)
Theorem collectSymbols_keeps_pushed (tree : ts.NavigationTree)
    (container : option string) (symbols : list SymbolInformation) :
  take (length symbols) (collectSymbols document tree container symbols)
    = symbols
  ∧ drop (length symbols) (collectSymbols document tree container symbols)
    = collectSymbols document tree container [].
Proof.
  rewrite collectSymbols_appends. split.
  - by rewrite take_app_length.
  - by rewrite drop_app_length.
Qed.

End TraversalCount.

Section SymbolsOutcome.

Context `{Imports}.

Variable this : TypeScriptPlugin.
Variable document : Document.

(** X3: once enabled and given a service, [getDocumentSymbols] returns
    exactly when some node of the navigation tree has a span, and a result
    it returns has one record fewer than the tree has nodes with a span. *)
Theorem getDocumentSymbols_returns_iff_spanned (lang : ts.LanguageService)
    (t t' : list Call) :
  getConfig (host this) "typescript.documentSymbols.enable" = true →
  getLanguageServiceForDocument document (createDocument this)
    (t ++ [host_getConfig "typescript.documentSymbols.enable"])
    = (Returned lang, t') →
  ((∃ out trace, getDocumentSymbols this document t = (Returned out, trace))
   ↔ spanless (ts.getNavigationTree lang (getFilePath document)) = false)
  ∧ (∀ out trace,
       getDocumentSymbols this document t = (Returned out, trace) →
       S (length out) =
         spanned (ts.getNavigationTree lang (getFilePath document))
       ∧ trace = t' ++ [lang_getNavigationTree (getFilePath document)]).
Proof.
  intros Henabled Hlang.
  pose proof (collectSymbols_fresh_length document
                (ts.getNavigationTree lang (getFilePath document)) None)
    as Hlength.
  pose proof (spanned_spanless
                (ts.getNavigationTree lang (getFilePath document))) as Hzero.
  destruct (collectSymbols document
              (ts.getNavigationTree lang (getFilePath document)) None [])
    as [|first rest] eqn:Hsymbols.
  - assert (getDocumentSymbols this document t =
            (Thrown (TypeError "Cannot read property 'name' of undefined"),
             t' ++ [lang_getNavigationTree (getFilePath document)])) as Hthrown.
    { reach_engine Henabled Hlang. by rewrite Hsymbols. }
    rewrite Hthrown. simpl in Hlength. split; [split|].
    + by intros (out & trace & ?).
    + intros Hspans. symmetry in Hlength. apply Hzero in Hlength.
      congruence.
    + by intros out trace ?.
  - rewrite (getDocumentSymbols_returns this document lang t t'
               first rest Henabled Hlang Hsymbols).
    simpl in Hlength. split; [split|].
    + intros _. apply not_true_iff_false. intros Hspanless.
      apply Hzero in Hspanless. lia.
    + intros _. by do 2 eexists.
    + intros out trace [= <- <-]. by rewrite length_fmap.
Qed.

(** X4: unless the first record is itself named ["script"], no record of
    the result has the first record's name as its container. *)
Theorem getDocumentSymbols_never_names_first (lang : ts.LanguageService)
    (t t' : list Call) (first : SymbolInformation)
    (rest : list SymbolInformation) :
  getConfig (host this) "typescript.documentSymbols.enable" = true →
  getLanguageServiceForDocument document (createDocument this)
    (t ++ [host_getConfig "typescript.documentSymbols.enable"])
    = (Returned lang, t') →
  collectSymbols document (ts.getNavigationTree lang (getFilePath document))
    None [] = first :: rest →
  name first ≠ "script" →
  ∃ out,
    getDocumentSymbols this document t =
      (Returned out, t' ++ [lang_getNavigationTree (getFilePath document)])
    ∧ Forall (λ result, containerName result ≠ Some (name first)) out.
Proof.
  intros Henabled Hlang Hsymbols Hname.
  eexists. split; [by apply (getDocumentSymbols_returns this document lang)|].
  apply Forall_fmap, Forall_forall. intros symbol _. simpl.
  unfold reparent. case_decide; simpl; congruence.
Qed.

(** X5: when the root has a span and a non-empty name, every child of the
    root that has a span comes back under its own name in the container
    ["script"] (the record factory is assumed to store the name it is
    given, and the container it is given when that is absent or a
    non-empty string). *)
Theorem getDocumentSymbols_top_level_in_script (lang : ts.LanguageService)
    (t t' : list Call) (textR kindR : string) (spansR : list ts.TextSpan)
    (children : list ts.NavigationTree) :
  getConfig (host this) "typescript.documentSymbols.enable" = true →
  getLanguageServiceForDocument document (createDocument this)
    (t ++ [host_getConfig "typescript.documentSymbols.enable"])
    = (Returned lang, t') →
  (∀ n k r u c, name (SymbolInformation_create n k r u c) = n) →
  (∀ n k r u c, c ≠ Some "" →
     containerName (SymbolInformation_create n k r u c) = c) →
  ts.getNavigationTree lang (getFilePath document) =
    ts.Node textR kindR spansR (Some children) →
  spansR ≠ [] →
  textR ≠ "" →
  ∃ out,
    getDocumentSymbols this document t =
      (Returned out, t' ++ [lang_getNavigationTree (getFilePath document)])
    ∧ ∀ text kind spans childItems,
        ts.Node text kind spans childItems ∈ children →
        spans ≠ [] →
        ∃ result,
          result ∈ out ∧ name result = text
          ∧ containerName result = Some "script".
Proof.
  intros Henabled Hlang Hname Hcontainer Htree HspansR HtextR.
  pose proof (getDocumentSymbols_returns this document lang t t') as Hreturns.
  rewrite Htree, collectSymbols_fresh in Hreturns.
  destruct spansR as [|spanR spansR]; [done|].
  destruct (last (spanR :: spansR)) as [finalR|] eqn:HfinalR;
    [|by apply last_None in HfinalR].
  simpl in Hreturns.
  eexists. split; [by apply Hreturns|].
  intros text kind spans childItems Hchild Hspans.
  rewrite Hname.
  destruct spans as [|span spans]; [done|].
  destruct (last (span :: spans)) as [final|] eqn:Hfinal;
    [|by apply last_None in Hfinal].
  eexists (reparent textR
             (SymbolInformation_create text (symbolKindFromString kind)
                (Range.create
                   (positionAt document (ts.start span))
                   (positionAt document (ts.start final + ts.length final)))
                (getURL document) (Some textR))).
  split; [|split].
  - apply list_elem_of_fmap_2, list_elem_of_In, in_concat.
    exists (collectSymbols document
              (ts.Node text kind (span :: spans) childItems) (Some textR) []).
    split.
    + apply list_elem_of_In.
      by apply (list_elem_of_fmap_2
                  (λ child, collectSymbols document child (Some textR) [])).
    + rewrite collectSymbols_fresh. simpl head. rewrite Hfinal.
      by left.
  - unfold reparent. case_decide; simpl; by rewrite ?Hname.
  - unfold reparent. rewrite Hcontainer by congruence.
    by rewrite decide_True.
Qed.

End SymbolsOutcome.

Section Failures.

Context `{Imports}.

Variable this : TypeScriptPlugin.
Variable document : Document.

(** X6: no operation catches a failure of the service resolver: when the
    resolver throws, an enabled operation throws the same exception and
    leaves the trace where the resolver left it, so no query is sent to the
    engine afterwards. *)
Theorem resolver_failure_propagates (position : Position)
    (triggerCharacter : option string) (e : Exception) (t t' : list Call) :
  (getConfig (host this) "typescript.diagnostics.enable" = true →
   getLanguageServiceForDocument document (createDocument this)
     (t ++ [host_getConfig "typescript.diagnostics.enable"]) = (Thrown e, t') →
   getDiagnostics this document t = (Thrown e, t'))
  ∧ (getConfig (host this) "typescript.hover.enable" = true →
     getLanguageServiceForDocument document (createDocument this)
       (t ++ [host_getConfig "typescript.hover.enable"]) = (Thrown e, t') →
     doHover this document position t = (Thrown e, t'))
  ∧ (getConfig (host this) "typescript.documentSymbols.enable" = true →
     getLanguageServiceForDocument document (createDocument this)
       (t ++ [host_getConfig "typescript.documentSymbols.enable"])
       = (Thrown e, t') →
     getDocumentSymbols this document t = (Thrown e, t'))
  ∧ (getConfig (host this) "typescript.completions.enable" = true →
     getLanguageServiceForDocument document (createDocument this)
       (t ++ [host_getConfig "typescript.completions.enable"])
       = (Thrown e, t') →
     getCompletions this document position triggerCharacter t
     = (Thrown e, t')).
Proof.
  split; [|split; [|split]];
    intros Henabled Hthrown; run_operation;
    by rewrite Henabled; simpl; rewrite Hthrown.
Qed.


End Failures.

Section Flags.

Context `{Imports}.

Variable document : Document.

(** X8: each operation reads one configuration key and nothing else of
    the host: two plugins with the same document factory whose hosts agree
    on an operation's key run that operation alike, whatever the other
    settings. *)
Theorem operations_read_one_flag (this other : TypeScriptPlugin)
    (position : Position) (triggerCharacter : option string)
    (t : list Call) :
  createDocument this = createDocument other →
  (getConfig (host this) "typescript.diagnostics.enable" =
   getConfig (host other) "typescript.diagnostics.enable" →
   getDiagnostics this document t = getDiagnostics other document t)
  ∧ (getConfig (host this) "typescript.hover.enable" =
     getConfig (host other) "typescript.hover.enable" →
     doHover this document position t = doHover other document position t)
  ∧ (getConfig (host this) "typescript.documentSymbols.enable" =
     getConfig (host other) "typescript.documentSymbols.enable" →
     getDocumentSymbols this document t = getDocumentSymbols other document t)
  ∧ (getConfig (host this) "typescript.completions.enable" =
     getConfig (host other) "typescript.completions.enable" →
     getCompletions this document position triggerCharacter t =
     getCompletions other document position triggerCharacter t).
Proof.
  intros Hfactory.
  split; [|split; [|split]];
    intros Hflag; run_operation; by rewrite Hflag, Hfactory.
Qed.

(** X9: the document factory of a registered plugin does not throw and
    returns the document the host opened; it opens the file's URI with the
    given text at version 0 and then locks that same URI, so a trace in
    which every lock comes right after the opening of its URI stays so. *)
Theorem createDocument_locks_what_it_opens (h : Host)
    (fileName content : string) (previous : option Call) (t : list Call) :
  locks_follow_opens previous t = true →
  ∃ item,
    createDocument (onRegister h) fileName content t =
      (Returned (openDocument h item),
       t ++ [host_openDocument item; host_lockDocument (URL_file fileName)])
    ∧ itemUri item = URL_file fileName
    ∧ itemText item = content
    ∧ version item = 0
    ∧ locks_follow_opens previous
        (t ++ [host_openDocument item; host_lockDocument (URL_file fileName)])
      = true.
Proof.
  intros Hlocks.
  exists {| languageId := ""; itemText := content;
            itemUri := URL_file fileName; version := 0 |}.
  split; [|split; [done|split; [done|split; [done|]]]].
  - unfold onRegister, call, mbind, M_bind, mret, M_ret. simpl.
    by rewrite <- app_assoc.
  - by apply (locks_follow_opens_app previous t
                {| languageId := ""; itemText := content;
                   itemUri := URL_file fileName; version := 0 |}).
Qed.

End Flags.

Section SymbolNames.

Context `{Imports}.

Variable this : TypeScriptPlugin.
Variable document : Document.

Hypothesis create_name :
  ∀ n k r u c, name (SymbolInformation_create n k r u c) = n.

Lemma fmap_concat_children {A} (f : A → list SymbolInformation)
    (g : A → list string) (l : list A) :
  Forall (λ x, name <$> f x = g x) l →
  name <$> concat (f <$> l) = concat (g <$> l).
Proof.
  induction 1 as [|x l Hx _ IH]; simpl; [done|].
  rewrite fmap_app, Hx. f_equal. exact IH.
Qed.

Lemma collectSymbols_names (tree : ts.NavigationTree)
    (container : option string) :
  name <$> collectSymbols document tree container [] = spanned_texts tree.
Proof.
  revert container.
  induction tree as [text kind spans|text kind spans children IH]
    using NavigationTree_children_ind; intros container;
    rewrite collectSymbols_fresh, fmap_app.
  - destruct spans as [|span spans]; [done|].
    destruct (last (span :: spans)) eqn:Hfinal;
      [|by apply last_None in Hfinal].
    simpl. by rewrite create_name.
  - simpl default.
    rewrite (fmap_concat_children _ spanned_texts).
    + destruct spans as [|span spans]; [done|].
      destruct (last (span :: spans)) eqn:Hfinal;
        [|by apply last_None in Hfinal].
      simpl. by rewrite create_name.
    + eapply Forall_impl; [exact IH|]. intros child Hchild. apply Hchild.
Qed.

(** X10: the names in a result of [getDocumentSymbols] are the display
    names of the nodes that have a span, parents before children and
    siblings in the engine's order, without the first of them (the record
    factory is assumed to store the name it is given). *)
Theorem getDocumentSymbols_names_in_preorder (lang : ts.LanguageService)
    (t t' trace : list Call) (out : list SymbolInformation) :
  getConfig (host this) "typescript.documentSymbols.enable" = true →
  getLanguageServiceForDocument document (createDocument this)
    (t ++ [host_getConfig "typescript.documentSymbols.enable"])
    = (Returned lang, t') →
  getDocumentSymbols this document t = (Returned out, trace) →
  name <$> out =
  drop 1 (spanned_texts (ts.getNavigationTree lang (getFilePath document))).
Proof.
  intros Henabled Hlang.
  pose proof (collectSymbols_names
                (ts.getNavigationTree lang (getFilePath document)) None)
    as Hnames.
  reach_engine Henabled Hlang.
  destruct (collectSymbols document
              (ts.getNavigationTree lang (getFilePath document)) None [])
    as [|first rest]; simpl; [done|].
  intros [= <- _]. rewrite <- Hnames. simpl.
  rewrite <- list_fmap_compose. apply list_fmap_ext.
  intros i symbol _. simpl. unfold reparent. by case_decide.
Qed.

End SymbolNames.

(** ** The further properties on the sample collaborators *)

(** A module with a class, its method and a variable: four nodes with a
    span, three records returned. *)
Lemma getDocumentSymbols_returns_iff_spanned_witness :
  spanless Sample.script_tree = false
  ∧ ∃ out,
      getDocumentSymbols
        (H := Sample.imports (Sample.tree_engine Sample.script_tree))
        (Sample.plugin (Sample.tree_engine Sample.script_tree)
           Sample.all_enabled)
        Sample.untyped [] =
      (Returned out,
       (host_getConfig "typescript.documentSymbols.enable" ::
        Sample.factory_trace) ++
       [lang_getNavigationTree (Some "/App.svelte.ts")])
      ∧ S (length out) = 4%nat.
Proof.
  destruct (@getDocumentSymbols_returns_iff_spanned
              (Sample.imports (Sample.tree_engine Sample.script_tree))
              (Sample.plugin (Sample.tree_engine Sample.script_tree)
                 Sample.all_enabled)
              Sample.untyped (Sample.tree_engine Sample.script_tree) []
              (host_getConfig "typescript.documentSymbols.enable" ::
               Sample.factory_trace)
              eq_refl eq_refl) as [Hiff Hresult].
  split; [reflexivity|].
  destruct (proj2 Hiff eq_refl) as (out & trace & Hrun).
  destruct (Hresult out trace Hrun) as [Hlength Htrace].
  exists out. split; [|exact Hlength].
  rewrite Hrun. f_equal. exact Htrace.
Defined.

(** No record of the sample result names the module as its container. *)
Lemma getDocumentSymbols_never_names_first_witness :
  ∃ out,
    getDocumentSymbols
      (H := Sample.imports (Sample.tree_engine Sample.script_tree))
      (Sample.plugin (Sample.tree_engine Sample.script_tree)
         Sample.all_enabled)
      Sample.untyped [] =
    (Returned out,
     (host_getConfig "typescript.documentSymbols.enable" ::
      Sample.factory_trace) ++
     [lang_getNavigationTree (Some "/App.svelte.ts")])
    ∧ Forall (λ result, containerName result ≠ Some "App.svelte.ts") out.
Proof.
  eassert (collectSymbols
             (H := Sample.imports (Sample.tree_engine Sample.script_tree))
             Sample.untyped Sample.script_tree None [] = _ :: _) as Hsymbols
    by (vm_compute; reflexivity).
  refine (@getDocumentSymbols_never_names_first
            (Sample.imports (Sample.tree_engine Sample.script_tree))
            (Sample.plugin (Sample.tree_engine Sample.script_tree)
               Sample.all_enabled)
            Sample.untyped (Sample.tree_engine Sample.script_tree) []
            (host_getConfig "typescript.documentSymbols.enable" ::
             Sample.factory_trace)
            _ _ eq_refl eq_refl Hsymbols _).
  discriminate.
Defined.

(** The class [Counter], a child of the module, comes back in ["script"]. *)
Lemma getDocumentSymbols_top_level_in_script_witness :
  ∃ out,
    getDocumentSymbols
      (H := Sample.imports (Sample.tree_engine Sample.script_tree))
      (Sample.plugin (Sample.tree_engine Sample.script_tree)
         Sample.all_enabled)
      Sample.untyped [] =
    (Returned out,
     (host_getConfig "typescript.documentSymbols.enable" ::
      Sample.factory_trace) ++
     [lang_getNavigationTree (Some "/App.svelte.ts")])
    ∧ ∃ result,
        result ∈ out ∧ name result = "Counter"
        ∧ containerName result = Some "script".
Proof.
  destruct (@getDocumentSymbols_top_level_in_script
              (Sample.imports (Sample.tree_engine Sample.script_tree))
              (Sample.plugin (Sample.tree_engine Sample.script_tree)
                 Sample.all_enabled)
              Sample.untyped (Sample.tree_engine Sample.script_tree) []
              (host_getConfig "typescript.documentSymbols.enable" ::
               Sample.factory_trace)
              "App.svelte.ts" "module" [Sample.span 0 40]
              [ts.Node "Counter" "class" [Sample.span 0 20]
                 (Some [ts.Node "increment" "method" [Sample.span 10 8] None]);
               ts.Node "count" "let" [Sample.span 25 5] None]
              eq_refl eq_refl
              (λ _ _ _ _ _, eq_refl)
              (λ n k r u c Hc,
                 match decide (c = Some "") as d
                   return (if d then None else c) = c with
                 | left Hempty => match Hc Hempty with end
                 | right _ => eq_refl
                 end)
              eq_refl
              ltac:(discriminate) ltac:(discriminate))
    as (out & Hrun & Hchildren).
  exists out. split; [exact Hrun|].
  apply (Hchildren "Counter" "class" [Sample.span 0 20]
           (Some [ts.Node "increment" "method" [Sample.span 10 8] None])).
  - apply list_elem_of_here.
  - discriminate.
Defined.

(** A resolver that cannot find the file: every operation throws its
    exception right after the configuration lookup. *)
Lemma resolver_failure_propagates_witness :
  getDiagnostics (H := Sample.broken_imports)
    (@onRegister Sample.broken_imports (Sample.host Sample.all_enabled))
    Sample.typed [] =
    (Thrown (OtherError "Could not find file: '/App.svelte.ts'."),
     [host_getConfig "typescript.diagnostics.enable"])
  ∧ doHover (H := Sample.broken_imports)
      (@onRegister Sample.broken_imports (Sample.host Sample.all_enabled))
      Sample.typed {| line := 0; character := 4 |} [] =
    (Thrown (OtherError "Could not find file: '/App.svelte.ts'."),
     [host_getConfig "typescript.hover.enable"])
  ∧ getDocumentSymbols (H := Sample.broken_imports)
      (@onRegister Sample.broken_imports (Sample.host Sample.all_enabled))
      Sample.typed [] =
    (Thrown (OtherError "Could not find file: '/App.svelte.ts'."),
     [host_getConfig "typescript.documentSymbols.enable"])
  ∧ getCompletions (H := Sample.broken_imports)
      (@onRegister Sample.broken_imports (Sample.host Sample.all_enabled))
      Sample.typed {| line := 0; character := 4 |} None [] =
    (Thrown (OtherError "Could not find file: '/App.svelte.ts'."),
     [host_getConfig "typescript.completions.enable"]).
Proof.
  pose proof (@resolver_failure_propagates Sample.broken_imports
                (@onRegister Sample.broken_imports
                   (Sample.host Sample.all_enabled))
                Sample.typed {| line := 0; character := 4 |} None
                (OtherError "Could not find file: '/App.svelte.ts'.") [])
    as Hall.
  split; [|split; [|split]].
  - exact (proj1 (Hall [host_getConfig "typescript.diagnostics.enable"])
             eq_refl eq_refl).
  - exact (proj1 (proj2 (Hall [host_getConfig "typescript.hover.enable"]))
             eq_refl eq_refl).
  - exact (proj1 (proj2 (proj2
             (Hall [host_getConfig "typescript.documentSymbols.enable"])))
             eq_refl eq_refl).
  - exact (proj2 (proj2 (proj2
             (Hall [host_getConfig "typescript.completions.enable"])))
             eq_refl eq_refl).
Defined.


(** Diagnostics come out the same with every flag set and with only their
    own flag set. *)
Lemma operations_read_one_flag_witness :
  getConfig (Sample.host Sample.all_enabled) "typescript.hover.enable"
    ≠ getConfig (Sample.host (Sample.only "typescript.diagnostics.enable"))
        "typescript.hover.enable"
  ∧ getDiagnostics (H := Sample.imports Sample.checker)
      (Sample.plugin Sample.checker Sample.all_enabled) Sample.typed [] =
    getDiagnostics (H := Sample.imports Sample.checker)
      (Sample.plugin Sample.checker
         (Sample.only "typescript.diagnostics.enable"))
      Sample.typed [].
Proof.
  split; [discriminate|].
  exact (proj1 (@operations_read_one_flag (Sample.imports Sample.checker)
                  Sample.typed
                  (Sample.plugin Sample.checker Sample.all_enabled)
                  (Sample.plugin Sample.checker
                     (Sample.only "typescript.diagnostics.enable"))
                  {| line := 0; character := 4 |} None [] eq_refl)
           eq_refl).
Defined.

(** The factory called after a configuration lookup. *)
Lemma createDocument_locks_what_it_opens_witness :
  ∃ item,
    createDocument
      (@onRegister (Sample.imports Sample.checker)
         (Sample.host Sample.all_enabled))
      "/App.svelte.ts" "let x = 1"
      [host_getConfig "typescript.hover.enable"] =
    (Returned (Sample.document ∅),
     [host_getConfig "typescript.hover.enable"; host_openDocument item;
      host_lockDocument "file:///App.svelte.ts"])
    ∧ itemUri item = "file:///App.svelte.ts"
    ∧ itemText item = "let x = 1"
    ∧ version item = 0
    ∧ locks_follow_opens None
        [host_getConfig "typescript.hover.enable"; host_openDocument item;
         host_lockDocument "file:///App.svelte.ts"]
      = true.
Proof.
  exact (@createDocument_locks_what_it_opens (Sample.imports Sample.checker)
           (Sample.host Sample.all_enabled) "/App.svelte.ts" "let x = 1"
           None [host_getConfig "typescript.hover.enable"] eq_refl).
Defined.

(** The outline of the sample module: the class, its method, the variable. *)
Lemma getDocumentSymbols_names_in_preorder_witness :
  ∃ out,
    getDocumentSymbols
      (H := Sample.imports (Sample.tree_engine Sample.script_tree))
      (Sample.plugin (Sample.tree_engine Sample.script_tree)
         Sample.all_enabled)
      Sample.untyped [] =
    (Returned out,
     (host_getConfig "typescript.documentSymbols.enable" ::
      Sample.factory_trace) ++
     [lang_getNavigationTree (Some "/App.svelte.ts")])
    ∧ name <$> out = ["Counter"; "increment"; "count"].
Proof.
  eassert (getDocumentSymbols
             (H := Sample.imports (Sample.tree_engine Sample.script_tree))
             (Sample.plugin (Sample.tree_engine Sample.script_tree)
                Sample.all_enabled)
             Sample.untyped [] = (Returned _, _)) as Hrun
    by (vm_compute; reflexivity).
  eexists. split; [exact Hrun|].
  exact (@getDocumentSymbols_names_in_preorder
           (Sample.imports (Sample.tree_engine Sample.script_tree))
           (Sample.plugin (Sample.tree_engine Sample.script_tree)
              Sample.all_enabled)
           Sample.untyped (λ _ _ _ _ _, eq_refl)
           (Sample.tree_engine Sample.script_tree) []
           (host_getConfig "typescript.documentSymbols.enable" ::
            Sample.factory_trace)
           _ _ eq_refl eq_refl Hrun).
Defined.
